(** * ADT7320 SPI temperature-sensor driver (adt7320.c / adt7320.h)

    A shallow embedding of the four driver entry points

      - [ADT7320_Init]
      - [ADT7320_ReadRegister]
      - [ADT7320_WriteRegister]
      - [ADT7320_ReadTemperature]

    together with the properties of the byte sequences they put on the bus.

    Conventions.
    - C integers are [Z] with the conversions written out ([mod 256] for a
      store into [uint8_t], [mod 65536] for a store into [uint16_t]); [int]
      and [unsigned int] are 32 bits wide, as on every STM32.
    - Arrays are lists accessed by index; an access outside the array is
      undefined behaviour in C and is reported as [Undefined OutOfBounds].
    - Output parameters ([pData], [pTemperature]) point to valid objects; a
      function takes the object's content before the call and returns its
      content after the call.
    - The STM32 HAL is not part of the driver.  Every HAL call is appended to
      a chronological log, and what the SPI peripheral answers is taken from a
      [Transport] that the whole development is parameterised over.
    - C [float] is IEEE-754 binary32, computed with the Standard Library's
      executable specification of floating point ([SpecFloat], precision 24,
      maximal exponent 128). *)

From Stdlib Require Import ZArith QArith Lia.
From Stdlib Require Import Floats.SpecFloat.
From stdpp Require Import base list.

Local Open Scope Z_scope.

(* ------------------------------------------------------------------------- *)
(** ** adt7320.h : constants and types                                        *)
(* ------------------------------------------------------------------------- *)

Definition ADT7320_MAX_DELAY : Z := 0xFFFFFFFF.

Definition ADT7320_READ  : Z := 0x40.
Definition ADT7320_WRITE : Z := 0x00.
Definition ADT7320_DUMMY : Z := 0x00.

Definition ADT7320_STATUS : Z := 0x00.
Definition ADT7320_CONFIG : Z := 0x01.
Definition ADT7320_TEMP   : Z := 0x02.
Definition ADT7320_ID     : Z := 0x03.
Definition ADT7320_TCRIT  : Z := 0x04.
Definition ADT7320_THYST  : Z := 0x05.
Definition ADT7320_THIGH  : Z := 0x06.
Definition ADT7320_TLOW   : Z := 0x07.

(** [SPI_HandleTypeDef *] and [GPIO_TypeDef *] are opaque to the driver: it
    only hands them back to the HAL.  They are modelled by their address. *)
Record ADT7320_ConfigTypeDef : Type := {
  SPIx   : Z;
  csPort : Z;
  csPin  : Z
}.

Inductive ADT7320_StatusTypeDef : Type :=
| ADT7320_OK
| ADT7320_ERROR
| ADT7320_BUSY
| ADT7320_TIMEOUT.

Definition ADT7320_Status_value (s : ADT7320_StatusTypeDef) : Z :=
  match s with
  | ADT7320_OK => 0
  | ADT7320_ERROR => 1
  | ADT7320_BUSY => 2
  | ADT7320_TIMEOUT => 3
  end.

(* ------------------------------------------------------------------------- *)
(** ** The HAL as seen from the driver                                        *)
(* ------------------------------------------------------------------------- *)

Inductive GPIO_PinState : Type := GPIO_PIN_RESET | GPIO_PIN_SET.

(** Modelled from the spec: the HAL status enumeration [HAL_StatusTypeDef]
    lives in the vendor header [stm32f1xx_hal_def.h], which is not among the
    driver's sources.  The transport reports one of success, error, busy or
    timeout, numbered 0 to 3 in that order, and the driver passes that number
    through unchanged. *)
Inductive HAL_StatusTypeDef : Type :=
| HAL_OK
| HAL_ERROR
| HAL_BUSY
| HAL_TIMEOUT.

Definition HAL_Status_value (s : HAL_StatusTypeDef) : Z :=
  match s with
  | HAL_OK => 0
  | HAL_ERROR => 1
  | HAL_BUSY => 2
  | HAL_TIMEOUT => 3
  end.

(** The cast [(ADT7320_StatusTypeDef) hal_status]: an enum-to-enum conversion
    goes through the integer value. *)
Definition ADT7320_Status_of_Z (n : Z) : ADT7320_StatusTypeDef :=
  if n =? 0 then ADT7320_OK
  else if n =? 1 then ADT7320_ERROR
  else if n =? 2 then ADT7320_BUSY
  else ADT7320_TIMEOUT.

Definition status_cast (h : HAL_StatusTypeDef) : ADT7320_StatusTypeDef :=
  ADT7320_Status_of_Z (HAL_Status_value h).

(** One entry of the log per HAL call, with the arguments of the call.  A
    buffer argument is recorded as the content of the whole array the pointer
    designates at the time of the call; [Size] is the number of bytes the HAL
    is asked to move. *)
Inductive hal_call : Type :=
| GPIO_WritePin (port pin : Z) (state : GPIO_PinState)
| SPI_Transmit (hspi : Z) (pData : list Z) (Size Timeout : Z)
| SPI_TransmitReceive (hspi : Z) (pTxData : list Z) (Size Timeout : Z).

(** What the bus answers.  Both answers may depend on everything that was
    done before ([list hal_call]).  [on_TransmitReceive] also yields the bytes
    the HAL stored through [pRxData], first byte first; on a failed exchange
    that may be fewer than [Size], down to none. *)
Record Transport : Type := {
  on_Transmit :
    list hal_call -> Z -> list Z -> Z -> Z -> HAL_StatusTypeDef;
  on_TransmitReceive :
    list hal_call -> Z -> list Z -> Z -> Z -> HAL_StatusTypeDef * list Z
}.

(* ------------------------------------------------------------------------- *)
(** ** Outcomes and the monad of HAL computations                             *)
(* ------------------------------------------------------------------------- *)

Inductive fault : Type :=
| OutOfBounds       (* array subscript outside the array *)
| ShiftOutOfRange.  (* shift count not smaller than the width of [int] *)

(** How a call ends: it returns a value, it runs into undefined behaviour,
    or the model gives up on a loop after [loop_fuel] iterations (which never
    happens, see [driver_never_out_of_fuel]). *)
Inductive outcome (A : Type) : Type :=
| Returns (a : A)
| Undefined (f : fault)
| OutOfFuel.

Arguments Returns {A} a.
Arguments Undefined {A} f.
Arguments OutOfFuel {A}.

Definition HAL_M (A : Type) : Type :=
  list hal_call -> outcome A * list hal_call.

Definition ret {A : Type} (a : A) : HAL_M A :=
  fun log => (Returns a, log).

Definition bind {A B : Type} (m : HAL_M A) (k : A -> HAL_M B) : HAL_M B :=
  fun log =>
    match m log with
    | (Returns a, log') => k a log'
    | (Undefined f, log') => (Undefined f, log')
    | (OutOfFuel, log') => (OutOfFuel, log')
    end.

Definition lift {A : Type} (o : outcome A) : HAL_M A :=
  fun log => (o, log).

Declare Scope hal_scope.
Delimit Scope hal_scope with hal.
Notation "x <- m ;; k" := (bind m (fun x => k))
  (at level 100, m at next level, right associativity) : hal_scope.
Local Open Scope hal_scope.

(** Every driver loop is driven by a [uint8_t] counter, which has 256 states. *)
Definition loop_fuel : nat := 256.

(** A store of [rx] through a pointer to the first element of [buf]: the
    bytes land on the leading elements of the array, each reduced to a
    [uint8_t]; what would land beyond the array is not part of the object. *)
Definition store_bytes (rx buf : list Z) : list Z :=
  take (length buf) (map (fun b => b mod 256) rx ++ drop (length rx) buf).

Section Driver.

Variable bus : Transport.

Definition HAL_GPIO_WritePin (port pin : Z) (state : GPIO_PinState)
  : HAL_M unit :=
  fun log => (Returns tt, log ++ [GPIO_WritePin port pin state]).

Definition HAL_SPI_Transmit (hspi : Z) (pData : list Z) (Size Timeout : Z)
  : HAL_M HAL_StatusTypeDef :=
  fun log =>
    (Returns (on_Transmit bus log hspi pData Size Timeout),
     log ++ [SPI_Transmit hspi pData Size Timeout]).

(** The driver passes the same array as [pTxData] and [pRxData]; the call
    yields the status and the array as the exchange leaves it. *)
Definition HAL_SPI_TransmitReceive (hspi : Z) (pTxRxData : list Z)
    (Size Timeout : Z) : HAL_M (HAL_StatusTypeDef * list Z) :=
  fun log =>
    let '(st, rx) := on_TransmitReceive bus log hspi pTxRxData Size Timeout in
    (Returns (st, store_bytes rx pTxRxData),
     log ++ [SPI_TransmitReceive hspi pTxRxData Size Timeout]).

(* ----------------------------------------------------------------------- *)
(** ** adt7320.c                                                            *)
(* ----------------------------------------------------------------------- *)

Definition ADT7320_Init (pConfig : option ADT7320_ConfigTypeDef)
  : HAL_M ADT7320_StatusTypeDef :=
  let data := [0xFF; 0xFF; 0xFF; 0xFF] in
  match pConfig with
  | None => ret ADT7320_ERROR
  | Some cfg =>
      _ <- HAL_GPIO_WritePin (csPort cfg) (csPin cfg) GPIO_PIN_RESET ;;
      st <- HAL_SPI_Transmit (SPIx cfg) data 4 ADT7320_MAX_DELAY ;;
      _ <- HAL_GPIO_WritePin (csPort cfg) (csPin cfg) GPIO_PIN_SET ;;
      ret (status_cast st)
  end.

(** The command byte stored in element 0 of the buffer. *)
Definition command_byte (direction reg : Z) : Z :=
  (Z.lor direction (Z.shiftl (Z.land reg 0x1F) 3)) mod 256.

(** [for (uint8_t i = 1U; i <= dataSize; i++)
       rxData = (rxData << 8U) | txRxBuf[i];] *)
Fixpoint read_loop (fuel : nat) (txRxBuf : list Z) (dataSize i rxData : Z)
  : outcome Z :=
  match fuel with
  | O => OutOfFuel
  | S fuel' =>
      if i <=? dataSize then
        match txRxBuf !! Z.to_nat i with
        | None => Undefined OutOfBounds
        | Some b =>
            read_loop fuel' txRxBuf dataSize ((i + 1) mod 256)
                      ((Z.lor (Z.shiftl rxData 8) b) mod 65536)
        end
      else Returns rxData
  end.

(** [pData] is the content of the caller's [uint16_t] before the call; the
    second component of the result is its content after the call.  [reg] and
    [dataSize] are [uint8_t], so [dataSize + 1U] is at most 256 and reaches
    the [uint16_t] parameter [Size] unchanged. *)
Definition ADT7320_ReadRegister (pConfig : option ADT7320_ConfigTypeDef)
    (reg dataSize : Z) (pData : Z) : HAL_M (ADT7320_StatusTypeDef * Z) :=
  let txRxBuf := [0; 0; 0] in
  let rxData := 0 in
  match pConfig with
  | None => ret (ADT7320_ERROR, pData)
  | Some cfg =>
      if dataSize =? 0 then ret (ADT7320_ERROR, pData)
      else
        let txRxBuf := <[0%nat := command_byte ADT7320_READ reg]> txRxBuf in
        _ <- HAL_GPIO_WritePin (csPort cfg) (csPin cfg) GPIO_PIN_RESET ;;
        r <- HAL_SPI_TransmitReceive (SPIx cfg) txRxBuf
               (dataSize + 1) ADT7320_MAX_DELAY ;;
        let '(st, txRxBuf) := r in
        _ <- HAL_GPIO_WritePin (csPort cfg) (csPin cfg) GPIO_PIN_SET ;;
        rxData <- lift (read_loop loop_fuel txRxBuf dataSize 1 rxData) ;;
        ret (status_cast st, rxData)
  end.

(** [for (uint8_t i = 0U; i < dataSize; i++)
       txBuf[i + 1U] = (uint8_t)(data >> (8U * (dataSize - i - 1U)));] *)
Fixpoint write_loop (fuel : nat) (txBuf : list Z) (dataSize data i : Z)
  : outcome (list Z) :=
  match fuel with
  | O => OutOfFuel
  | S fuel' =>
      if i <? dataSize then
        let count := (8 * ((dataSize - i - 1) mod 2 ^ 32)) mod 2 ^ 32 in
        if 32 <=? count then Undefined ShiftOutOfRange
        else
          let byte := (Z.shiftr data count) mod 256 in
          let idx := Z.to_nat (i + 1) in
          if (idx <? length txBuf)%nat then
            write_loop fuel' (<[idx := byte]> txBuf) dataSize data
                       ((i + 1) mod 256)
          else Undefined OutOfBounds
      else Returns txBuf
  end.

Definition ADT7320_WriteRegister (pConfig : option ADT7320_ConfigTypeDef)
    (reg dataSize : Z) (data : Z) : HAL_M ADT7320_StatusTypeDef :=
  let txBuf := [0; 0; 0] in
  match pConfig with
  | None => ret ADT7320_ERROR
  | Some cfg =>
      if dataSize =? 0 then ret ADT7320_ERROR
      else
        let txBuf := <[0%nat := command_byte ADT7320_WRITE reg]> txBuf in
        txBuf <- lift (write_loop loop_fuel txBuf dataSize data 0) ;;
        _ <- HAL_GPIO_WritePin (csPort cfg) (csPin cfg) GPIO_PIN_RESET ;;
        st <- HAL_SPI_Transmit (SPIx cfg) txBuf (dataSize + 1)
                ADT7320_MAX_DELAY ;;
        _ <- HAL_GPIO_WritePin (csPort cfg) (csPin cfg) GPIO_PIN_SET ;;
        ret (status_cast st)
  end.

(** *** Temperature conversion: binary32 arithmetic *)

Definition float_prec : Z := 24.
Definition float_emax : Z := 128.

(** Conversion of an integer to [float] (round to nearest even). *)
Definition float_of_Z (n : Z) : spec_float :=
  binary_normalize float_prec float_emax n 0 false.

Definition float_div (x y : spec_float) : spec_float :=
  SFdiv float_prec float_emax x y.

(** The literal [128.0f]. *)
Definition f128 : spec_float := float_of_Z 128.

(** The cast [(int16_t)data] of a [uint16_t]: the value is kept modulo
    2^16 in the range of [int16_t]. *)
Definition int16_of_uint16 (data : Z) : Z :=
  if data <? 32768 then data else data - 65536.

(** The body of [if (status == ADT7320_OK) { ... }], up to the store. *)
Definition raw_to_celsius (data : Z) : spec_float :=
  if negb (Z.land data 0x8000 =? 0)
  then float_div (float_of_Z (int16_of_uint16 data)) f128
  else float_div (float_of_Z data) f128.

Definition ADT7320_Status_eqb (a b : ADT7320_StatusTypeDef) : bool :=
  ADT7320_Status_value a =? ADT7320_Status_value b.

(** [pTemperature] is the content of the caller's [float] before the call;
    the second component of the result is its content after the call. *)
Definition ADT7320_ReadTemperature (pConfig : option ADT7320_ConfigTypeDef)
    (pTemperature : spec_float)
  : HAL_M (ADT7320_StatusTypeDef * spec_float) :=
  let data := 0 in
  match pConfig with
  | None => ret (ADT7320_ERROR, pTemperature)
  | Some _ =>
      r <- ADT7320_ReadRegister pConfig ADT7320_TEMP 2 data ;;
      let '(status, data) := r in
      if ADT7320_Status_eqb status ADT7320_OK
      then ret (status, raw_to_celsius data)
      else ret (status, pTemperature)
  end.

End Driver.

(* ------------------------------------------------------------------------- *)
(** ** Reading the log                                                        *)
(* ------------------------------------------------------------------------- *)

(** The bytes a HAL call clocks out on MOSI: the first [Size] bytes of the
    array it was given; a GPIO write moves none. *)
Definition sent_bytes (c : hal_call) : list Z :=
  match c with
  | GPIO_WritePin _ _ _ => []
  | SPI_Transmit _ pData Size _ => take (Z.to_nat Size) pData
  | SPI_TransmitReceive _ pTxData Size _ => take (Z.to_nat Size) pTxData
  end.

Definition is_spi_exchange (c : hal_call) : bool :=
  match c with
  | GPIO_WritePin _ _ _ => false
  | SPI_Transmit _ _ _ _ => true
  | SPI_TransmitReceive _ _ _ _ => true
  end.

(** The chip-select line of the ADT7320 is active low. *)
Definition cs_assert (cfg : ADT7320_ConfigTypeDef) : hal_call :=
  GPIO_WritePin (csPort cfg) (csPin cfg) GPIO_PIN_RESET.

Definition cs_deassert (cfg : ADT7320_ConfigTypeDef) : hal_call :=
  GPIO_WritePin (csPort cfg) (csPin cfg) GPIO_PIN_SET.

(** One framed transaction: select, one SPI exchange, deselect. *)
Definition transaction (cfg : ADT7320_ConfigTypeDef) (exchange : hal_call)
  : list hal_call :=
  [cs_assert cfg; exchange; cs_deassert cfg].

(** Big-endian value of a byte string, as the specification words it: each
    successive byte is shifted into the low 8 bits of an accumulator that
    starts at zero. *)
Definition big_endian (bytes : list Z) : Z :=
  fold_left (fun acc b => Z.lor (Z.shiftl acc 8) b) bytes 0.

(** The reading of a raw 16-bit code as the specification words it:
    two's-complement signed when bit 15 is set, unsigned otherwise. *)
Definition signed16 (raw : Z) : Z :=
  if Z.testbit raw 15 then raw - 65536 else raw.

(** The rational a finite binary float denotes; [None] for infinities and
    NaN. *)
Definition SF_to_Q (x : spec_float) : option Q :=
  match x with
  | S754_zero _ => Some (0 # 1)%Q
  | S754_finite s m e =>
      let n := if s then Z.neg m else Z.pos m in
      Some (if 0 <=? e then (n * 2 ^ e # 1)%Q
            else (n # Z.to_pos (2 ^ (- e)))%Q)
  | S754_infinity _ => None
  | S754_nan => None
  end.

Definition Q_opt_eqb (x : option Q) (q : Q) : bool :=
  match x with
  | Some p => Qeq_bool p q
  | None => false
  end.

(** The expressions of the two loop bodies, named. *)
Definition shift_count (s i : Z) : Z :=
  (8 * ((s - i - 1) mod 2 ^ 32)) mod 2 ^ 32.

Definition payload_byte (data s i : Z) : Z :=
  (Z.shiftr data (shift_count s i)) mod 256.

Definition accumulate (acc b : Z) : Z :=
  (Z.lor (Z.shiftl acc 8) b) mod 65536.

(** A value that fits a [uint8_t]. *)
Definition is_byte (b : Z) : Prop := 0 <= b < 256.

(** What a call may add to the log: nothing, or one framed transaction on the
    handle's chip-select line. *)
Definition framed (pConfig : option ADT7320_ConfigTypeDef)
    (before after : list hal_call) : Prop :=
  after = before \/
  exists cfg exchange,
    pConfig = Some cfg /\
    is_spi_exchange exchange = true /\
    after = before ++ [cs_assert cfg; exchange; cs_deassert cfg].

(** [f] holds on [count] consecutive integers starting at [x]. *)
Fixpoint all_from (f : Z -> bool) (count : nat) (x : Z) : bool :=
  match count with
  | O => true
  | S count' => f x && all_from f count' (x + 1)
  end.

(** The float computed for [raw] is finite and denotes exactly
    [signed16 raw / 128]. *)
Definition celsius_exact (raw : Z) : bool :=
  Q_opt_eqb (SF_to_Q (raw_to_celsius raw)) (signed16 raw # 128).

(* ------------------------------------------------------------------------- *)
(** ** Test doubles                                                           *)
(* ------------------------------------------------------------------------- *)

(** A bus that answers every exchange with the same status and, on a
    full-duplex exchange, stores the same bytes. *)
Definition fake_bus (st : HAL_StatusTypeDef) (rx : list Z) : Transport :=
  {| on_Transmit := fun _ _ _ _ _ => st;
     on_TransmitReceive := fun _ _ _ _ _ => (st, rx) |}.

Definition sample_cfg : ADT7320_ConfigTypeDef :=
  {| SPIx := 0x40013000; csPort := 0x40010800; csPin := 0x0010 |}.

(** A bus that always succeeds and, on a full-duplex exchange, echoes after
    the first byte the payload of the most recent [HAL_SPI_Transmit]: what a
    register written and then read back would answer. *)
Definition last_transmitted (log : list hal_call) : list Z :=
  fold_left (fun acc c =>
               match c with
               | SPI_Transmit _ _ _ _ => sent_bytes c
               | _ => acc
               end) log [].

Definition echo_bus : Transport :=
  {| on_Transmit := fun _ _ _ _ _ => HAL_OK;
     on_TransmitReceive :=
       fun log _ _ _ _ => (HAL_OK, 0 :: drop 1 (last_transmitted log)) |}.

(** A log made of framed transactions on one handle, back to back. *)
Inductive framed_log (cfg : ADT7320_ConfigTypeDef) : list hal_call -> Prop :=
| framed_nil : framed_log cfg []
| framed_cons (exchange : hal_call) (rest : list hal_call) :
    is_spi_exchange exchange = true ->
    framed_log cfg rest ->
    framed_log cfg (transaction cfg exchange ++ rest).

(** A finite temperature within what a 16-bit code can express. *)
Definition temperature_in_range (t : spec_float) : Prop :=
  exists q, SF_to_Q t = Some q /\ (-256 # 1 <= q)%Q /\ (q < 256 # 1)%Q.

(* ------------------------------------------------------------------------- *)
(** ** example/main.c                                                         *)
(* ------------------------------------------------------------------------- *)

Module Example.

(** The objects with static storage: [status[5U]], zero-initialised (0 is
    [ADT7320_OK]), and [temperature = 0.0]. *)
Record globals : Type := {
  status : list ADT7320_StatusTypeDef;
  temperature : spec_float
}.

Definition initial_globals : globals :=
  {| status := [ADT7320_OK; ADT7320_OK; ADT7320_OK; ADT7320_OK; ADT7320_OK];
     temperature := S754_zero false |}.

(** [status[k] = st;] for a [k] within the array. *)
Definition set_status (k : nat) (st : ADT7320_StatusTypeDef) (g : globals)
  : globals :=
  {| status := <[k := st]> (status g); temperature := temperature g |}.

Section Main.

Variable bus : Transport.

(** [adt7320_handler] once its three fields are assigned: [&hspi1], [GPIOA]
    and [GPIO_PIN_4] come from the generated HAL code. *)
Variable adt7320_handler : ADT7320_ConfigTypeDef.

(** The four calls before the loop. *)
Definition main_setup (g : globals) : HAL_M globals :=
  st <- ADT7320_Init bus (Some adt7320_handler) ;;
  let g := set_status 0 st g in
  st <- ADT7320_WriteRegister bus (Some adt7320_handler)
          ADT7320_CONFIG 1 0x80 ;;
  let g := set_status 1 st g in
  st <- ADT7320_WriteRegister bus (Some adt7320_handler)
          ADT7320_TLOW 2 0xF600 ;;
  let g := set_status 2 st g in
  st <- ADT7320_WriteRegister bus (Some adt7320_handler)
          ADT7320_THIGH 2 0x2300 ;;
  let g := set_status 3 st g in
  ret g.

(** The body of [while (1)]. *)
Definition main_iteration (g : globals) : HAL_M globals :=
  r <- ADT7320_ReadTemperature bus (Some adt7320_handler) (temperature g) ;;
  let '(st, t) := r in
  ret {| status := <[4%nat := st]> (status g); temperature := t |}.

Fixpoint main_iterations (n : nat) (g : globals) : HAL_M globals :=
  match n with
  | O => ret g
  | S n' => g' <- main_iteration g ;; main_iterations n' g'
  end.

(** [main] never returns; [main n] is its run up to the end of the [n]-th
    iteration of the loop. *)
Definition main (n : nat) : HAL_M globals :=
  g <- main_setup initial_globals ;;
  main_iterations n g.

End Main.

End Example.

(** The four transactions of the set-up, as they appear in the log. *)
Definition setup_events (h : ADT7320_ConfigTypeDef) : list hal_call :=
  transaction h (SPI_Transmit (SPIx h) [0xFF; 0xFF; 0xFF; 0xFF] 4
                              ADT7320_MAX_DELAY)
  ++ transaction h (SPI_Transmit (SPIx h) [0x08; 0x80; 0x00] 2
                                 ADT7320_MAX_DELAY)
  ++ transaction h (SPI_Transmit (SPIx h) [0x38; 0xF6; 0x00] 3
                                 ADT7320_MAX_DELAY)
  ++ transaction h (SPI_Transmit (SPIx h) [0x30; 0x23; 0x00] 3
                                 ADT7320_MAX_DELAY).

(* ------------------------------------------------------------------------- *)
(** ** Stepping lemmas                                                        *)
(* ------------------------------------------------------------------------- *)

Lemma app_cons3 {A : Type} (l : list A) (a b c : A) :
  ((l ++ [a]) ++ [b]) ++ [c] = l ++ [a; b; c].
Proof. now rewrite <- !app_assoc. Qed.

Lemma read_loop_step fuel buf s i acc :
  read_loop (S fuel) buf s i acc =
  if i <=? s then
    match buf !! Z.to_nat i with
    | None => Undefined OutOfBounds
    | Some b => read_loop fuel buf s ((i + 1) mod 256)
                          ((Z.lor (Z.shiftl acc 8) b) mod 65536)
    end
  else Returns acc.
Proof. reflexivity. Qed.

Lemma write_loop_step fuel buf s data i :
  write_loop (S fuel) buf s data i =
  if i <? s then
    let count := (8 * ((s - i - 1) mod 2 ^ 32)) mod 2 ^ 32 in
    if 32 <=? count then Undefined ShiftOutOfRange
    else
      let byte := (Z.shiftr data count) mod 256 in
      let idx := Z.to_nat (i + 1) in
      if (idx <? length buf)%nat then
        write_loop fuel (<[idx := byte]> buf) s data ((i + 1) mod 256)
      else Undefined OutOfBounds
  else Returns buf.
Proof. reflexivity. Qed.

Lemma length_store_bytes rx buf : length (store_bytes rx buf) = length buf.
Proof.
  unfold store_bytes.
  rewrite length_take, length_app, length_map, length_drop. lia.
Qed.

(** The run of [ADT7320_Init] on a valid handle. *)
Lemma Init_run bus cfg log :
  ADT7320_Init bus (Some cfg) log =
  (Returns (status_cast
              (on_Transmit bus (log ++ [cs_assert cfg]) (SPIx cfg)
                           [0xFF; 0xFF; 0xFF; 0xFF] 4 ADT7320_MAX_DELAY)),
   log ++ transaction cfg
            (SPI_Transmit (SPIx cfg) [0xFF; 0xFF; 0xFF; 0xFF] 4
                          ADT7320_MAX_DELAY)).
Proof.
  unfold ADT7320_Init, bind, HAL_GPIO_WritePin, HAL_SPI_Transmit, ret.
  unfold transaction, cs_assert, cs_deassert.
  now rewrite app_cons3.
Qed.

(** The run of [ADT7320_ReadRegister] once both guards are passed. *)
Lemma ReadRegister_run bus cfg reg s pData log :
  s <> 0 ->
  let buf := [command_byte ADT7320_READ reg; 0; 0] in
  let call := SPI_TransmitReceive (SPIx cfg) buf (s + 1) ADT7320_MAX_DELAY in
  let answer := on_TransmitReceive bus (log ++ [cs_assert cfg]) (SPIx cfg)
                                   buf (s + 1) ADT7320_MAX_DELAY in
  ADT7320_ReadRegister bus (Some cfg) reg s pData log =
  (match read_loop loop_fuel (store_bytes (snd answer) buf) s 1 0 with
   | Returns v => Returns (status_cast (fst answer), v)
   | Undefined f => Undefined f
   | OutOfFuel => OutOfFuel
   end,
   log ++ transaction cfg call).
Proof.
  intros Hs buf call answer.
  unfold ADT7320_ReadRegister.
  destruct (s =? 0) eqn:E; [apply Z.eqb_eq in E; contradiction|].
  unfold bind, HAL_GPIO_WritePin, HAL_SPI_TransmitReceive, ret, lift.
  cbn [insert list_insert].
  fold buf. fold (cs_assert cfg). fold answer.
  destruct answer as [st rx]; cbn [fst snd].
  unfold transaction, call, cs_deassert.
  rewrite app_cons3.
  now destruct (read_loop loop_fuel (store_bytes rx buf) s 1 0).
Qed.

(** The run of [ADT7320_WriteRegister] once both guards are passed. *)
Lemma WriteRegister_run bus cfg reg s data log :
  s <> 0 ->
  let buf := [command_byte ADT7320_WRITE reg; 0; 0] in
  ADT7320_WriteRegister bus (Some cfg) reg s data log =
  match write_loop loop_fuel buf s data 0 with
  | Returns txBuf =>
      (Returns (status_cast
                  (on_Transmit bus (log ++ [cs_assert cfg]) (SPIx cfg)
                               txBuf (s + 1) ADT7320_MAX_DELAY)),
       log ++ transaction cfg
                (SPI_Transmit (SPIx cfg) txBuf (s + 1) ADT7320_MAX_DELAY))
  | Undefined f => (Undefined f, log)
  | OutOfFuel => (OutOfFuel, log)
  end.
Proof.
  intros Hs buf.
  unfold ADT7320_WriteRegister.
  destruct (s =? 0) eqn:E; [apply Z.eqb_eq in E; contradiction|].
  unfold bind, lift, HAL_GPIO_WritePin, HAL_SPI_Transmit, ret.
  cbn [insert list_insert].
  fold buf.
  destruct (write_loop loop_fuel buf s data 0) as [txBuf| |]; try reflexivity.
  unfold transaction, cs_assert, cs_deassert.
  now rewrite app_cons3.
Qed.

(** *** The two loops on a three-byte buffer *)

Lemma read_loop_3 fuel a b c s :
  read_loop (S (S (S fuel))) [a; b; c] s 1 0 =
  if 1 <=? s then
    if 2 <=? s then
      if 3 <=? s then Undefined OutOfBounds
      else Returns (accumulate (accumulate 0 b) c)
    else Returns (accumulate 0 b)
  else Returns 0.
Proof.
  rewrite read_loop_step.
  destruct (1 <=? s); [|reflexivity].
  change ([a; b; c] !! Z.to_nat 1) with (Some b). cbv beta iota.
  change ((1 + 1) mod 256) with 2.
  rewrite read_loop_step.
  destruct (2 <=? s); [|reflexivity].
  change ([a; b; c] !! Z.to_nat 2) with (Some c). cbv beta iota.
  change ((2 + 1) mod 256) with 3.
  rewrite read_loop_step.
  destruct (3 <=? s); reflexivity.
Qed.

Lemma write_loop_3 fuel c s data :
  write_loop (S (S (S fuel))) [c; 0; 0] s data 0 =
  if 0 <? s then
    if 32 <=? shift_count s 0 then Undefined ShiftOutOfRange
    else if 1 <? s then
      if 32 <=? shift_count s 1 then Undefined ShiftOutOfRange
      else if 2 <? s then
        if 32 <=? shift_count s 2 then Undefined ShiftOutOfRange
        else Undefined OutOfBounds
      else Returns [c; payload_byte data s 0; payload_byte data s 1]
    else Returns [c; payload_byte data s 0; 0]
  else Returns [c; 0; 0].
Proof.
  rewrite write_loop_step.
  destruct (0 <? s); [|reflexivity].
  cbv zeta. fold (shift_count s 0).
  destruct (32 <=? shift_count s 0); [reflexivity|].
  fold (payload_byte data s 0).
  change (Z.to_nat (0 + 1)) with 1%nat.
  change (Nat.ltb 1 (length [c; 0; 0])) with true. cbv iota.
  change (<[1%nat := payload_byte data s 0]> [c; 0; 0])
    with [c; payload_byte data s 0; 0].
  change ((0 + 1) mod 256) with 1.
  rewrite write_loop_step.
  destruct (1 <? s); [|reflexivity].
  cbv zeta. fold (shift_count s 1).
  destruct (32 <=? shift_count s 1); [reflexivity|].
  fold (payload_byte data s 1).
  change (Z.to_nat (1 + 1)) with 2%nat.
  change (Nat.ltb 2 (length [c; payload_byte data s 0; 0])) with true. cbv iota.
  change (<[2%nat := payload_byte data s 1]> [c; payload_byte data s 0; 0])
    with [c; payload_byte data s 0; payload_byte data s 1].
  change ((1 + 1) mod 256) with 2.
  rewrite write_loop_step.
  destruct (2 <? s); [|reflexivity].
  cbv zeta. fold (shift_count s 2).
  destruct (32 <=? shift_count s 2); reflexivity.
Qed.

(** Both loops run on three-byte buffers: three iterations decide them. *)
Ltac unroll_loops :=
  change loop_fuel with (S (S (S 253)));
  rewrite ?read_loop_3, ?write_loop_3.

(** The buffer is still three bytes long after the exchange. *)
Lemma store_bytes_3 rx a b c :
  exists a' b' c', store_bytes rx [a; b; c] = [a'; b'; c'].
Proof.
  pose proof (length_store_bytes rx [a; b; c]) as H.
  destruct (store_bytes rx [a; b; c]) as [|a' [|b' [|c' [|d l]]]];
    try discriminate H.
  now exists a', b', c'.
Qed.

(** Neither loop can exhaust its fuel: both stop, or leave the array, within
    three iterations. *)
Lemma read_loop_fuel rx a b c s :
  read_loop loop_fuel (store_bytes rx [a; b; c]) s 1 0 <> OutOfFuel.
Proof.
  destruct (store_bytes_3 rx a b c) as (a' & b' & c' & ->).
  unroll_loops.
  destruct (1 <=? s), (2 <=? s), (3 <=? s); discriminate.
Qed.

Lemma write_loop_fuel c s data :
  write_loop loop_fuel [c; 0; 0] s data 0 <> OutOfFuel.
Proof.
  unroll_loops.
  destruct (0 <? s), (32 <=? shift_count s 0), (1 <? s),
    (32 <=? shift_count s 1), (2 <? s), (32 <=? shift_count s 2);
    discriminate.
Qed.

(* ------------------------------------------------------------------------- *)
(** ** Bit-level facts                                                        *)
(* ------------------------------------------------------------------------- *)

Lemma log2_below (n a : Z) : 0 < n -> 0 <= a < 2 ^ n -> Z.log2 a < n.
Proof.
  intros Hn Ha.
  destruct (Z.eq_dec a 0) as [E|E]; [now rewrite E|].
  apply Z.log2_lt_pow2; lia.
Qed.

Lemma lor_bound (n a b : Z) :
  0 < n -> 0 <= a < 2 ^ n -> 0 <= b < 2 ^ n -> 0 <= Z.lor a b < 2 ^ n.
Proof.
  intros Hn Ha Hb.
  assert (0 <= Z.lor a b) as Hnn by (apply Z.lor_nonneg; lia).
  split; [exact Hnn|].
  destruct (Z.eq_dec (Z.lor a b) 0) as [E|E]; [rewrite E; lia|].
  apply Z.log2_lt_pow2; [lia|].
  rewrite Z.log2_lor by lia.
  pose proof (log2_below n a Hn Ha).
  pose proof (log2_below n b Hn Hb).
  lia.
Qed.

Lemma land_0x1F (reg : Z) : 0 <= Z.land reg 0x1F < 32.
Proof.
  change 0x1F with (Z.ones 5).
  rewrite Z.land_ones by lia.
  apply Z.mod_pos_bound. lia.
Qed.

(** The store into [uint8_t] never truncates a command byte. *)
Lemma command_byte_eq (direction reg : Z) :
  0 <= direction < 256 ->
  command_byte direction reg = Z.lor direction (Z.shiftl (Z.land reg 0x1F) 3).
Proof.
  intros Hd. unfold command_byte.
  apply Z.mod_small.
  apply (lor_bound 8); [lia|exact Hd|].
  rewrite Z.shiftl_mul_pow2 by lia.
  pose proof (land_0x1F reg). change (2 ^ 3) with 8. change (2 ^ 8) with 256.
  lia.
Qed.

Lemma accumulate_first (b : Z) : 0 <= b < 256 -> accumulate 0 b = b.
Proof.
  intros Hb. unfold accumulate.
  rewrite Z.shiftl_0_l, Z.lor_0_l. apply Z.mod_small. lia.
Qed.

Lemma accumulate_second (b c : Z) :
  0 <= b < 256 -> 0 <= c < 256 ->
  accumulate b c = Z.lor (Z.shiftl b 8) c.
Proof.
  intros Hb Hc. unfold accumulate.
  apply Z.mod_small.
  apply (lor_bound 16); [lia| |change (2 ^ 16) with 65536; lia].
  rewrite Z.shiftl_mul_pow2 by lia.
  change (2 ^ 8) with 256. change (2 ^ 16) with 65536. lia.
Qed.

Lemma accumulate_range (acc b : Z) : 0 <= accumulate acc b < 65536.
Proof. unfold accumulate. apply Z.mod_pos_bound. lia. Qed.

Lemma payload_byte_eq (data s i : Z) :
  0 <= i < s -> s <= 2 ->
  payload_byte data s i = Z.land (Z.shiftr data (8 * (s - i - 1))) 0xFF.
Proof.
  intros Hi Hs. unfold payload_byte, shift_count.
  change 0xFF with (Z.ones 8).
  rewrite Z.land_ones by lia.
  rewrite (Z.mod_small (s - i - 1)) by lia.
  now rewrite (Z.mod_small (8 * (s - i - 1))) by lia.
Qed.

(* ------------------------------------------------------------------------- *)
(** ** Argument validation                                                    *)
(* ------------------------------------------------------------------------- *)

(** C7.  With a null handle each of the four operations returns
    [ADT7320_ERROR]; no HAL call is made (the log is unchanged: no SPI
    exchange, no chip-select write) and the output locations keep their
    content. *)
Theorem null_handle_rejected
    (bus : Transport) (reg dataSize data pData : Z)
    (pTemperature : spec_float) (log : list hal_call) :
  ADT7320_Init bus None log = (Returns ADT7320_ERROR, log) /\
  ADT7320_ReadRegister bus None reg dataSize pData log
    = (Returns (ADT7320_ERROR, pData), log) /\
  ADT7320_WriteRegister bus None reg dataSize data log
    = (Returns ADT7320_ERROR, log) /\
  ADT7320_ReadTemperature bus None pTemperature log
    = (Returns (ADT7320_ERROR, pTemperature), log).
Proof. repeat split. Qed.

(** A size of zero is rejected by both register operations before any HAL
    call. *)
Lemma size_zero_rejected
    (bus : Transport) (pConfig : option ADT7320_ConfigTypeDef)
    (reg data pData : Z) (log : list hal_call) :
  ADT7320_ReadRegister bus pConfig reg 0 pData log
    = (Returns (ADT7320_ERROR, pData), log) /\
  ADT7320_WriteRegister bus pConfig reg 0 data log
    = (Returns ADT7320_ERROR, log).
Proof. destruct pConfig; split; reflexivity. Qed.

(** C1, at the failing input [dataSize = 3].  The guard only tests
    [dataSize == 0U], so a size of 3 is not rejected.  The read selects the
    chip and asks the HAL to exchange 4 bytes on the 3-byte buffer, then runs
    off the end of that buffer when it assembles the value; the write runs off
    the end of its buffer while it fills it.  Neither returns
    [ADT7320_ERROR]. *)
Theorem size_three_not_rejected
    (bus : Transport) (cfg : ADT7320_ConfigTypeDef)
    (reg data pData : Z) (log : list hal_call) :
  ADT7320_ReadRegister bus (Some cfg) reg 3 pData log
    = (Undefined OutOfBounds,
       log ++ transaction cfg
                (SPI_TransmitReceive (SPIx cfg)
                   [command_byte ADT7320_READ reg; 0; 0] 4
                   ADT7320_MAX_DELAY)) /\
  ADT7320_WriteRegister bus (Some cfg) reg 3 data log
    = (Undefined OutOfBounds, log).
Proof.
  split.
  - rewrite ReadRegister_run by discriminate.
    destruct (store_bytes_3
                (snd (on_TransmitReceive bus (log ++ [cs_assert cfg])
                        (SPIx cfg) [command_byte ADT7320_READ reg; 0; 0]
                        (3 + 1) ADT7320_MAX_DELAY))
                (command_byte ADT7320_READ reg) 0 0) as (a & b & c & ->).
    now unroll_loops.
  - rewrite WriteRegister_run by discriminate.
    now unroll_loops.
Qed.

(* ------------------------------------------------------------------------- *)
(** ** Initialisation                                                         *)
(* ------------------------------------------------------------------------- *)

(** C8.  On a valid handle [ADT7320_Init] performs exactly one framed
    transaction whose SPI call transmits the four bytes [0xFF 0xFF 0xFF 0xFF]
    and nothing else (no command byte), and the status it returns has the
    numeric value of the status the HAL reported. *)
Theorem init_sends_reset_sequence
    (bus : Transport) (cfg : ADT7320_ConfigTypeDef) (log : list hal_call) :
  let call := SPI_Transmit (SPIx cfg) [0xFF; 0xFF; 0xFF; 0xFF] 4
                           ADT7320_MAX_DELAY in
  let reported := on_Transmit bus (log ++ [cs_assert cfg]) (SPIx cfg)
                              [0xFF; 0xFF; 0xFF; 0xFF] 4 ADT7320_MAX_DELAY in
  exists status,
    ADT7320_Init bus (Some cfg) log
      = (Returns status, log ++ [cs_assert cfg; call; cs_deassert cfg]) /\
    sent_bytes call = [0xFF; 0xFF; 0xFF; 0xFF] /\
    ADT7320_Status_value status = HAL_Status_value reported.
Proof.
  intros call reported.
  exists (status_cast reported).
  split; [apply Init_run|].
  split; [reflexivity|].
  now destruct reported.
Qed.

(* ------------------------------------------------------------------------- *)
(** ** Register read                                                          *)
(* ------------------------------------------------------------------------- *)

Lemma command_byte_is_byte (direction reg : Z) :
  is_byte (command_byte direction reg).
Proof. unfold is_byte, command_byte. apply Z.mod_pos_bound. lia. Qed.

(** A buffer of bytes still holds bytes after the exchange. *)
Lemma store_bytes_is_byte (rx buf : list Z) :
  Forall is_byte buf -> Forall is_byte (store_bytes rx buf).
Proof.
  intros Hbuf. unfold store_bytes.
  apply Forall_take, Forall_app_2.
  - apply List.Forall_map, Forall_forall. intros x _.
    unfold is_byte. apply Z.mod_pos_bound. lia.
  - now apply Forall_drop.
Qed.

(** The value a read of one or two bytes returns: the status of the exchange
    and the big-endian value of the [s] bytes that follow the command byte in
    the buffer as the exchange left it. *)
Lemma ReadRegister_sizes bus cfg reg s pData log :
  s = 1 \/ s = 2 ->
  let buf := [command_byte ADT7320_READ reg; 0; 0] in
  let call := SPI_TransmitReceive (SPIx cfg) buf (s + 1) ADT7320_MAX_DELAY in
  let answer := on_TransmitReceive bus (log ++ [cs_assert cfg]) (SPIx cfg)
                                   buf (s + 1) ADT7320_MAX_DELAY in
  ADT7320_ReadRegister bus (Some cfg) reg s pData log =
  (Returns (status_cast (fst answer),
            big_endian (take (Z.to_nat s)
                             (drop 1 (store_bytes (snd answer) buf)))),
   log ++ transaction cfg call).
Proof.
  intros Hs buf call answer.
  rewrite ReadRegister_run by lia.
  fold buf. fold call. fold answer.
  assert (Forall is_byte (store_bytes (snd answer) buf)) as Hbytes.
  { apply store_bytes_is_byte.
    apply Forall_cons. split; [apply command_byte_is_byte|].
    repeat constructor; unfold is_byte; lia. }
  destruct (store_bytes_3 (snd answer) (command_byte ADT7320_READ reg) 0 0)
    as (a & b & c & E).
  fold buf in E. rewrite E in *.
  apply Forall_cons in Hbytes as [_ Hbytes].
  apply Forall_cons in Hbytes as [Hb Hbytes].
  apply Forall_cons in Hbytes as [Hc _].
  unroll_loops.
  destruct Hs as [-> | ->]; cbn [Z.leb Z.compare Pos.compare Pos.compare_cont].
  - rewrite accumulate_first by exact Hb.
    change (big_endian (take (Z.to_nat 1) (drop 1 [a; b; c])))
      with (Z.lor (Z.shiftl 0 8) b).
    now rewrite Z.shiftl_0_l, Z.lor_0_l.
  - rewrite accumulate_first by exact Hb.
    rewrite accumulate_second by assumption.
    change (big_endian (take (Z.to_nat 2) (drop 1 [a; b; c])))
      with (Z.lor (Z.shiftl (Z.lor (Z.shiftl 0 8) b) 8) c).
    now rewrite Z.shiftl_0_l, Z.lor_0_l.
Qed.

(** C3.  For a read of one or two bytes, when the exchange stores a first
    byte (clocked in while the command byte goes out) followed by the [s]
    register bytes, the value returned is their big-endian value, built by
    shifting each byte in turn into the low 8 bits of an accumulator that
    starts at zero.  In particular the bytes [0x23 0x00] of a 2-byte register
    give [0x2300] and the byte [0x80] of a 1-byte register gives [0x80]. *)
Theorem read_register_reassembles_big_endian :
  (forall (bus : Transport) (cfg : ADT7320_ConfigTypeDef)
          (reg pData : Z) (log : list hal_call)
          (st : HAL_StatusTypeDef) (first : Z) (payload : list Z),
      let s := Z.of_nat (length payload) in
      s = 1 \/ s = 2 ->
      Forall is_byte payload ->
      on_TransmitReceive bus (log ++ [cs_assert cfg]) (SPIx cfg)
        [command_byte ADT7320_READ reg; 0; 0] (s + 1) ADT7320_MAX_DELAY
        = (st, first :: payload) ->
      fst (ADT7320_ReadRegister bus (Some cfg) reg s pData log)
        = Returns (status_cast st, big_endian payload)) /\
  (forall (st : HAL_StatusTypeDef) (first reg pData : Z)
          (cfg : ADT7320_ConfigTypeDef) (log : list hal_call),
      fst (ADT7320_ReadRegister (fake_bus st [first; 0x23; 0x00]) (Some cfg)
             reg 2 pData log)
        = Returns (status_cast st, 0x2300)) /\
  (forall (st : HAL_StatusTypeDef) (first reg pData : Z)
          (cfg : ADT7320_ConfigTypeDef) (log : list hal_call),
      fst (ADT7320_ReadRegister (fake_bus st [first; 0x80]) (Some cfg)
             reg 1 pData log)
        = Returns (status_cast st, 0x80)).
Proof.
  split; [|split].
  - intros bus cfg reg pData log st first payload s Hs Hbytes Hanswer.
    rewrite ReadRegister_sizes by exact Hs.
    rewrite Hanswer. cbn [fst snd].
    do 2 f_equal. f_equal.
    subst s.
    destruct payload as [|p1 [|p2 [|p3 l]]]; cbn [length] in Hs; try lia.
    + apply Forall_cons in Hbytes as [H1 _].
      unfold store_bytes. cbn.
      now rewrite (Z.mod_small p1) by exact H1.
    + apply Forall_cons in Hbytes as [H1 Hbytes].
      apply Forall_cons in Hbytes as [H2 _].
      unfold store_bytes. cbn.
      now rewrite (Z.mod_small p1), (Z.mod_small p2) by assumption.
  - intros. now rewrite ReadRegister_sizes by (now right).
  - intros. now rewrite ReadRegister_sizes by (now left).
Qed.

Lemma read_register_reassembles_big_endian_witness :
  fst (ADT7320_ReadRegister (fake_bus HAL_OK [0xFF; 0x23; 0x00])
         (Some sample_cfg) ADT7320_TEMP 2 0 [])
    = Returns (ADT7320_OK, 0x2300).
Proof.
  apply (proj1 read_register_reassembles_big_endian
           (fake_bus HAL_OK [0xFF; 0x23; 0x00]) sample_cfg ADT7320_TEMP 0 []
           HAL_OK 0xFF [0x23; 0x00]).
  - right. reflexivity.
  - repeat constructor; unfold is_byte; lia.
  - reflexivity.
Defined.

(** C10, as stated, fails for sizes above 2: with [dataSize = 255] the
    assembly loop leaves the 3-byte buffer at [i = 3], so the call never
    reaches the store through [pData] and returns no status. *)
Lemma read_size_255_stores_nothing :
  ~ exists (status : ADT7320_StatusTypeDef) (value : Z),
      fst (ADT7320_ReadRegister (fake_bus HAL_ERROR []) (Some sample_cfg)
             ADT7320_TEMP 255 0 [])
        = Returns (status, value).
Proof. intros (status & value & H). discriminate H. Qed.

(** C10, amended.  For a valid handle and a size of 1 or 2,
    [ADT7320_ReadRegister] always stores through [pData], whatever the
    exchange reported and whatever [pData] held: the value stored is the
    big-endian value of the [s] bytes after the command byte in the buffer as
    the exchange left it, and the status returned is the one the HAL
    reported.  When the exchange stored nothing, those bytes are the zeros the
    buffer was initialised with and the value stored is 0. *)
Theorem read_register_always_stores
    (bus : Transport) (cfg : ADT7320_ConfigTypeDef)
    (reg s pData : Z) (log : list hal_call) :
  s = 1 \/ s = 2 ->
  let buf := [command_byte ADT7320_READ reg; 0; 0] in
  let answer := on_TransmitReceive bus (log ++ [cs_assert cfg]) (SPIx cfg)
                                   buf (s + 1) ADT7320_MAX_DELAY in
  fst (ADT7320_ReadRegister bus (Some cfg) reg s pData log)
    = Returns (status_cast (fst answer),
               big_endian (take (Z.to_nat s)
                                (drop 1 (store_bytes (snd answer) buf)))) /\
  (snd answer = [] ->
   fst (ADT7320_ReadRegister bus (Some cfg) reg s pData log)
     = Returns (status_cast (fst answer), 0)).
Proof.
  intros Hs buf answer.
  rewrite ReadRegister_sizes by exact Hs.
  fold buf. fold answer. cbn [fst].
  split; [reflexivity|].
  intros ->.
  now destruct Hs as [-> | ->].
Qed.

Lemma read_register_always_stores_witness :
  fst (ADT7320_ReadRegister (fake_bus HAL_TIMEOUT []) (Some sample_cfg)
         ADT7320_TEMP 2 0xBEEF [])
    = Returns (ADT7320_TIMEOUT, 0).
Proof.
  refine (proj2 (read_register_always_stores (fake_bus HAL_TIMEOUT [])
                   sample_cfg ADT7320_TEMP 2 0xBEEF [] _) _).
  - right. reflexivity.
  - reflexivity.
Defined.

(* ------------------------------------------------------------------------- *)
(** ** Command byte                                                           *)
(* ------------------------------------------------------------------------- *)

(** C2.  For a register address [a] in 0..31, the command byte is
    [d | ((a & 0x1F) << 3)] with [d = 0x40] for a read and [d = 0x00] for a
    write, and it is the first byte that [ADT7320_ReadRegister] and
    [ADT7320_WriteRegister] clock out. *)
Theorem command_byte_on_the_wire
    (bus : Transport) (cfg : ADT7320_ConfigTypeDef)
    (a s data pData : Z) (log : list hal_call) :
  0 <= a <= 31 ->
  s = 1 \/ s = 2 ->
  command_byte ADT7320_READ a = Z.lor 0x40 (Z.shiftl (Z.land a 0x1F) 3) /\
  command_byte ADT7320_WRITE a = Z.lor 0x00 (Z.shiftl (Z.land a 0x1F) 3) /\
  (exists rbuf,
     snd (ADT7320_ReadRegister bus (Some cfg) a s pData log)
       = log ++ transaction cfg
                  (SPI_TransmitReceive (SPIx cfg) rbuf (s + 1)
                                       ADT7320_MAX_DELAY) /\
     head (sent_bytes (SPI_TransmitReceive (SPIx cfg) rbuf (s + 1)
                                           ADT7320_MAX_DELAY))
       = Some (Z.lor 0x40 (Z.shiftl (Z.land a 0x1F) 3))) /\
  (exists wbuf,
     snd (ADT7320_WriteRegister bus (Some cfg) a s data log)
       = log ++ transaction cfg
                  (SPI_Transmit (SPIx cfg) wbuf (s + 1) ADT7320_MAX_DELAY) /\
     head (sent_bytes (SPI_Transmit (SPIx cfg) wbuf (s + 1)
                                    ADT7320_MAX_DELAY))
       = Some (Z.lor 0x00 (Z.shiftl (Z.land a 0x1F) 3))).
Proof.
  intros _ Hs.
  assert (command_byte ADT7320_READ a
          = Z.lor 0x40 (Z.shiftl (Z.land a 0x1F) 3)) as HR
    by (apply command_byte_eq; unfold ADT7320_READ; lia).
  assert (command_byte ADT7320_WRITE a
          = Z.lor 0x00 (Z.shiftl (Z.land a 0x1F) 3)) as HW
    by (apply command_byte_eq; unfold ADT7320_WRITE; lia).
  split; [exact HR|]. split; [exact HW|]. split.
  - exists [command_byte ADT7320_READ a; 0; 0].
    rewrite ReadRegister_sizes by exact Hs. cbn [snd].
    split; [reflexivity|].
    rewrite <- HR. now destruct Hs as [-> | ->].
  - rewrite WriteRegister_run by lia.
    unroll_loops.
    destruct Hs as [-> | ->].
    + exists [command_byte ADT7320_WRITE a; payload_byte data 1 0; 0].
      split; [reflexivity|]. now rewrite <- HW.
    + exists [command_byte ADT7320_WRITE a; payload_byte data 2 0;
              payload_byte data 2 1].
      split; [reflexivity|]. now rewrite <- HW.
Qed.

Lemma command_byte_on_the_wire_witness :
  command_byte ADT7320_READ ADT7320_TEMP = 0x50 /\
  command_byte ADT7320_WRITE ADT7320_TLOW = 0x38.
Proof.
  split.
  - refine (proj1 (command_byte_on_the_wire (fake_bus HAL_OK []) sample_cfg
                     ADT7320_TEMP 2 0 0 [] _ _)).
    + unfold ADT7320_TEMP. lia.
    + right. reflexivity.
  - refine (proj1 (proj2 (command_byte_on_the_wire (fake_bus HAL_OK [])
                            sample_cfg ADT7320_TLOW 2 0 0 [] _ _))).
    + unfold ADT7320_TLOW. lia.
    + right. reflexivity.
Defined.

(* ------------------------------------------------------------------------- *)
(** ** Register write                                                         *)
(* ------------------------------------------------------------------------- *)

(** C4.  For a size [s] of 1 or 2 and a 16-bit value [v],
    [ADT7320_WriteRegister] performs one framed transaction whose SPI call
    transmits exactly [s + 1] bytes, and the byte at position [i + 1] (payload
    byte [i], counted from the command byte) is
    [(v >> (8 * (s - i - 1))) & 0xFF]: most-significant byte first, after the
    command byte at position 0.  The status returned is the one the HAL
    reported. *)
Theorem write_register_payload_msb_first
    (bus : Transport) (cfg : ADT7320_ConfigTypeDef)
    (reg s v : Z) (log : list hal_call) :
  s = 1 \/ s = 2 ->
  0 <= v < 65536 ->
  exists txBuf,
    let call := SPI_Transmit (SPIx cfg) txBuf (s + 1) ADT7320_MAX_DELAY in
    ADT7320_WriteRegister bus (Some cfg) reg s v log
      = (Returns (status_cast
                    (on_Transmit bus (log ++ [cs_assert cfg]) (SPIx cfg)
                                 txBuf (s + 1) ADT7320_MAX_DELAY)),
         log ++ [cs_assert cfg; call; cs_deassert cfg]) /\
    length (sent_bytes call) = Z.to_nat (s + 1) /\
    head (sent_bytes call) = Some (command_byte ADT7320_WRITE reg) /\
    forall i, 0 <= i < s ->
      sent_bytes call !! Z.to_nat (i + 1)
        = Some (Z.land (Z.shiftr v (8 * (s - i - 1))) 0xFF).
Proof.
  intros Hs _.
  rewrite WriteRegister_run by lia.
  unroll_loops.
  destruct Hs as [-> | ->].
  - exists [command_byte ADT7320_WRITE reg; payload_byte v 1 0; 0].
    split; [reflexivity|]. split; [reflexivity|]. split; [reflexivity|].
    intros i Hi. assert (i = 0) as -> by lia.
    now rewrite <- payload_byte_eq by lia.
  - exists [command_byte ADT7320_WRITE reg; payload_byte v 2 0;
            payload_byte v 2 1].
    split; [reflexivity|]. split; [reflexivity|]. split; [reflexivity|].
    intros i Hi. assert (i = 0 \/ i = 1) as [-> | ->] by lia;
      now rewrite <- payload_byte_eq by lia.
Qed.

Lemma write_register_payload_msb_first_witness :
  exists txBuf,
    let call := SPI_Transmit (SPIx sample_cfg) txBuf 3 ADT7320_MAX_DELAY in
    ADT7320_WriteRegister (fake_bus HAL_OK []) (Some sample_cfg)
                          ADT7320_TLOW 2 0xF600 []
      = (Returns ADT7320_OK,
         [cs_assert sample_cfg; call; cs_deassert sample_cfg]) /\
    length (sent_bytes call) = 3%nat /\
    head (sent_bytes call) = Some 0x38 /\
    forall i, 0 <= i < 2 ->
      sent_bytes call !! Z.to_nat (i + 1)
        = Some (Z.land (Z.shiftr 0xF600 (8 * (2 - i - 1))) 0xFF).
Proof.
  apply (write_register_payload_msb_first (fake_bus HAL_OK []) sample_cfg
           ADT7320_TLOW 2 0xF600 []).
  - right. reflexivity.
  - lia.
Defined.

(* ------------------------------------------------------------------------- *)
(** ** Chip-select framing                                                    *)
(* ------------------------------------------------------------------------- *)

(** C6.  Whatever the arguments and whatever the bus answers (failure
    included), the HAL calls made by [ADT7320_Init], [ADT7320_ReadRegister]
    and [ADT7320_WriteRegister] are either none at all or exactly: one
    chip-select assertion, one SPI exchange, one chip-select deassertion, in
    that order.  Chip-select is therefore never left asserted. *)
Theorem chip_select_frames_every_transaction
    (bus : Transport) (pConfig : option ADT7320_ConfigTypeDef)
    (reg dataSize data pData : Z) (log : list hal_call) :
  framed pConfig log (snd (ADT7320_Init bus pConfig log)) /\
  framed pConfig log
         (snd (ADT7320_ReadRegister bus pConfig reg dataSize pData log)) /\
  framed pConfig log
         (snd (ADT7320_WriteRegister bus pConfig reg dataSize data log)).
Proof.
  destruct pConfig as [cfg|]; [|repeat split; now left].
  split; [|split].
  - right. rewrite Init_run.
    eexists cfg, _. split; [reflexivity|].
    split; cycle 1; reflexivity.
  - destruct (Z.eq_dec dataSize 0) as [-> | Hs]; [now left|].
    right. rewrite ReadRegister_run by exact Hs.
    eexists cfg, _. split; [reflexivity|].
    split; cycle 1; reflexivity.
  - destruct (Z.eq_dec dataSize 0) as [-> | Hs]; [now left|].
    rewrite WriteRegister_run by exact Hs.
    destruct (write_loop loop_fuel _ dataSize data 0) as [txBuf| |];
      [|now left|now left].
    right. eexists cfg, _. split; [reflexivity|].
    split; cycle 1; reflexivity.
Qed.

(* ------------------------------------------------------------------------- *)
(** ** Temperature read                                                       *)
(* ------------------------------------------------------------------------- *)

Lemma ADT7320_Status_eqb_OK (status : ADT7320_StatusTypeDef) :
  ADT7320_Status_eqb status ADT7320_OK = true <-> status = ADT7320_OK.
Proof. destruct status; split; intro H; try reflexivity; discriminate H. Qed.

(** [ADT7320_ReadTemperature] on a valid handle, in terms of the register
    read it delegates to. *)
Lemma ReadTemperature_run bus cfg pTemperature log :
  exists status data,
    ADT7320_ReadRegister bus (Some cfg) ADT7320_TEMP 2 0 log
      = (Returns (status, data),
         log ++ transaction cfg
                  (SPI_TransmitReceive (SPIx cfg)
                     [command_byte ADT7320_READ ADT7320_TEMP; 0; 0] 3
                     ADT7320_MAX_DELAY)) /\
    0 <= data < 65536 /\
    ADT7320_ReadTemperature bus (Some cfg) pTemperature log
      = (Returns (status,
                  if ADT7320_Status_eqb status ADT7320_OK
                  then raw_to_celsius data else pTemperature),
         log ++ transaction cfg
                  (SPI_TransmitReceive (SPIx cfg)
                     [command_byte ADT7320_READ ADT7320_TEMP; 0; 0] 3
                     ADT7320_MAX_DELAY)).
Proof.
  unfold ADT7320_ReadTemperature, bind.
  rewrite ReadRegister_run by discriminate.
  destruct (store_bytes_3
              (snd (on_TransmitReceive bus (log ++ [cs_assert cfg])
                      (SPIx cfg)
                      [command_byte ADT7320_READ ADT7320_TEMP; 0; 0]
                      (2 + 1) ADT7320_MAX_DELAY))
              (command_byte ADT7320_READ ADT7320_TEMP) 0 0)
    as (a & b & c & ->).
  unroll_loops.
  change (1 <=? 2) with true. change (2 <=? 2) with true.
  change (3 <=? 2) with false. cbv iota.
  eexists _, _. split; [reflexivity|].
  split; [apply accumulate_range|].
  unfold ret.
  now destruct (ADT7320_Status_eqb _ ADT7320_OK).
Qed.

(** C9.  On a valid handle [ADT7320_ReadTemperature] makes exactly the HAL
    calls of one [ADT7320_ReadRegister] of register [ADT7320_TEMP = 2] with
    size 2 (one framed 3-byte exchange whose command byte is [0x50]), and it
    returns the status of that read.  When that status is not [ADT7320_OK]
    the temperature location keeps the content it had. *)
Theorem read_temperature_delegates_to_read_register
    (bus : Transport) (cfg : ADT7320_ConfigTypeDef)
    (pTemperature : spec_float) (log : list hal_call) :
  ADT7320_TEMP = 2 /\
  exists status data temperature,
    ADT7320_ReadRegister bus (Some cfg) 2 2 0 log
      = (Returns (status, data),
         log ++ [cs_assert cfg;
                 SPI_TransmitReceive (SPIx cfg) [0x50; 0; 0] 3
                                     ADT7320_MAX_DELAY;
                 cs_deassert cfg]) /\
    ADT7320_ReadTemperature bus (Some cfg) pTemperature log
      = (Returns (status, temperature),
         snd (ADT7320_ReadRegister bus (Some cfg) 2 2 0 log)) /\
    (status <> ADT7320_OK -> temperature = pTemperature).
Proof.
  split; [reflexivity|].
  destruct (ReadTemperature_run bus cfg pTemperature log)
    as (status & data & Hread & _ & Htemp).
  change ADT7320_TEMP with 2 in Hread.
  exists status, data.
  eexists. split; [exact Hread|].
  rewrite Hread. cbn [snd].
  split; [exact Htemp|].
  intros Hfail.
  destruct (ADT7320_Status_eqb status ADT7320_OK) eqn:E; [|reflexivity].
  now apply ADT7320_Status_eqb_OK in E.
Qed.

Lemma read_temperature_delegates_to_read_register_witness :
  ADT7320_ReadTemperature (fake_bus HAL_TIMEOUT [0xFF; 0x23])
                          (Some sample_cfg) (float_of_Z 25) []
    = (Returns (ADT7320_TIMEOUT, float_of_Z 25),
       [cs_assert sample_cfg;
        SPI_TransmitReceive (SPIx sample_cfg) [0x50; 0; 0] 3
                            ADT7320_MAX_DELAY;
        cs_deassert sample_cfg]).
Proof.
  destruct (read_temperature_delegates_to_read_register
              (fake_bus HAL_TIMEOUT [0xFF; 0x23]) sample_cfg
              (float_of_Z 25) [])
    as (_ & status & data & temperature & Hread & Htemp & Hkeep).
  rewrite Htemp.
  injection Hread as <- _.
  rewrite Hkeep by discriminate.
  reflexivity.
Defined.

(** *** Conversion to degrees *)

Lemma all_from_spec (f : Z -> bool) (count : nat) :
  forall x, all_from f count x = true ->
  forall y, x <= y < x + Z.of_nat count -> f y = true.
Proof.
  induction count as [|count IH]; intros x H y Hy; [lia|].
  cbn [all_from] in H. apply andb_true_iff in H as [Hx Hrest].
  destruct (Z.eq_dec y x) as [->|Hne]; [exact Hx|].
  apply (IH (x + 1) Hrest). lia.
Qed.

Lemma celsius_exact_all : all_from celsius_exact (Z.to_nat 65536) 0 = true.
Proof. vm_compute. reflexivity. Qed.

Lemma raw_to_celsius_value (raw : Z) :
  0 <= raw < 65536 ->
  exists q, SF_to_Q (raw_to_celsius raw) = Some q /\
            (q == signed16 raw # 128)%Q.
Proof.
  intros Hraw.
  pose proof (all_from_spec _ _ _ celsius_exact_all raw) as H.
  rewrite Z2Nat.id in H by lia. specialize (H Hraw).
  unfold celsius_exact, Q_opt_eqb in H.
  destruct (SF_to_Q (raw_to_celsius raw)) as [q|]; [|discriminate H].
  exists q. split; [reflexivity|]. now apply Qeq_bool_iff.
Qed.

(** C5.  For every raw 16-bit code, the temperature that
    [ADT7320_ReadTemperature] stores after a successful read is the [float]
    of exact value [n / 128], where [n] is the code read as a two's-complement
    number when bit 15 is set and as an unsigned number otherwise.  In
    particular the code [0x2300] gives [70.0f] and the code [0xF600] gives
    [-20.0f]. *)
Theorem read_temperature_divides_by_128 :
  (forall (bus : Transport) (cfg : ADT7320_ConfigTypeDef)
          (pTemperature : spec_float) (log : list hal_call) (raw : Z),
      fst (ADT7320_ReadRegister bus (Some cfg) ADT7320_TEMP 2 0 log)
        = Returns (ADT7320_OK, raw) ->
      exists (temperature : spec_float) (q : Q),
        fst (ADT7320_ReadTemperature bus (Some cfg) pTemperature log)
          = Returns (ADT7320_OK, temperature) /\
        SF_to_Q temperature = Some q /\
        (q == signed16 raw # 128)%Q) /\
  (forall (cfg : ADT7320_ConfigTypeDef) (first : Z)
          (pTemperature : spec_float) (log : list hal_call),
      fst (ADT7320_ReadTemperature (fake_bus HAL_OK [first; 0x23; 0x00])
             (Some cfg) pTemperature log)
        = Returns (ADT7320_OK, float_of_Z 70)) /\
  (forall (cfg : ADT7320_ConfigTypeDef) (first : Z)
          (pTemperature : spec_float) (log : list hal_call),
      fst (ADT7320_ReadTemperature (fake_bus HAL_OK [first; 0xF6; 0x00])
             (Some cfg) pTemperature log)
        = Returns (ADT7320_OK, float_of_Z (-20))).
Proof.
  split; [|split].
  - intros bus cfg pTemperature log raw Hread.
    destruct (ReadTemperature_run bus cfg pTemperature log)
      as (status & data & Hrun & Hrange & Htemp).
    rewrite Hrun in Hread. cbn [fst] in Hread.
    injection Hread as -> ->.
    destruct (raw_to_celsius_value raw Hrange) as (q & Hq & Heq).
    exists (raw_to_celsius raw), q.
    rewrite Htemp. now repeat split.
  - intros cfg first pTemperature log.
    destruct (ReadTemperature_run (fake_bus HAL_OK [first; 0x23; 0x00]) cfg
                pTemperature log) as (status & data & Hrun & _ & ->).
    rewrite ReadRegister_sizes in Hrun by (now right).
    now injection Hrun as <- <-.
  - intros cfg first pTemperature log.
    destruct (ReadTemperature_run (fake_bus HAL_OK [first; 0xF6; 0x00]) cfg
                pTemperature log) as (status & data & Hrun & _ & ->).
    rewrite ReadRegister_sizes in Hrun by (now right).
    now injection Hrun as <- <-.
Qed.

Lemma read_temperature_divides_by_128_witness :
  exists (temperature : spec_float) (q : Q),
    fst (ADT7320_ReadTemperature (fake_bus HAL_OK [0xFF; 0xF6; 0x00])
           (Some sample_cfg) (float_of_Z 0) [])
      = Returns (ADT7320_OK, temperature) /\
    SF_to_Q temperature = Some q /\
    (q == signed16 0xF600 # 128)%Q.
Proof.
  apply (proj1 read_temperature_divides_by_128
           (fake_bus HAL_OK [0xFF; 0xF6; 0x00]) sample_cfg (float_of_Z 0) []
           0xF600).
  reflexivity.
Defined.

(* ------------------------------------------------------------------------- *)
(** ** Totality of the model                                                  *)
(* ------------------------------------------------------------------------- *)

(** The fuel given to the loops is never the reason a call stops: every call
    either returns or hits undefined behaviour. *)
Lemma driver_never_out_of_fuel
    (bus : Transport) (pConfig : option ADT7320_ConfigTypeDef)
    (reg dataSize data pData : Z) (pTemperature : spec_float)
    (log : list hal_call) :
  fst (ADT7320_Init bus pConfig log) <> OutOfFuel /\
  fst (ADT7320_ReadRegister bus pConfig reg dataSize pData log)
    <> OutOfFuel /\
  fst (ADT7320_WriteRegister bus pConfig reg dataSize data log)
    <> OutOfFuel /\
  fst (ADT7320_ReadTemperature bus pConfig pTemperature log) <> OutOfFuel.
Proof.
  destruct pConfig as [cfg|]; [|repeat split; discriminate].
  split; [rewrite Init_run; discriminate|].
  split; [|split].
  - destruct (Z.eq_dec dataSize 0) as [-> | Hs]; [discriminate|].
    rewrite ReadRegister_run by exact Hs. cbn [fst].
    pose proof (read_loop_fuel
                  (snd (on_TransmitReceive bus (log ++ [cs_assert cfg])
                          (SPIx cfg) [command_byte ADT7320_READ reg; 0; 0]
                          (dataSize + 1) ADT7320_MAX_DELAY))
                  (command_byte ADT7320_READ reg) 0 0 dataSize) as H.
    destruct (read_loop loop_fuel _ dataSize 1 0);
      [discriminate|discriminate|now elim H].
  - destruct (Z.eq_dec dataSize 0) as [-> | Hs]; [discriminate|].
    rewrite WriteRegister_run by exact Hs.
    pose proof (write_loop_fuel (command_byte ADT7320_WRITE reg)
                                dataSize data) as H.
    destruct (write_loop loop_fuel _ dataSize data 0);
      [discriminate|discriminate|now elim H].
  - destruct (ReadTemperature_run bus cfg pTemperature log)
      as (status & value & _ & _ & ->).
    discriminate.
Qed.

(* ------------------------------------------------------------------------- *)
(** ** Further properties of the register operations                         *)
(* ------------------------------------------------------------------------- *)

(** A byte placed above a byte: the bitwise or is the sum. *)
Lemma lor_shiftl_byte (hi lo : Z) :
  Z.lor (Z.shiftl hi 8) (lo mod 256) = hi * 256 + lo mod 256.
Proof.
  assert (Z.land (Z.shiftl hi 8) (lo mod 256) = 0) as Hdisjoint.
  { apply Z.bits_inj'. intros n Hn.
    rewrite Z.land_spec, Z.bits_0.
    destruct (Z.lt_ge_cases n 8) as [Hlow | Hhigh].
    - now rewrite Z.shiftl_spec_low.
    - change 256 with (2 ^ 8).
      rewrite (Z.mod_pow2_bits_high lo 8 n) by lia.
      apply andb_false_r. }
  pose proof (Z.add_lor_land (Z.shiftl hi 8) (lo mod 256)) as Hsum.
  rewrite Hdisjoint in Hsum.
  rewrite (Z.shiftl_mul_pow2 hi 8) in * by lia.
  change (2 ^ 8) with 256 in *. lia.
Qed.

(** The two payload bytes of a 2-byte write carry [v] modulo 2^16. *)
Lemma payload_two_bytes (v : Z) :
  0 <= v ->
  big_endian [payload_byte v 2 0; payload_byte v 2 1] = v mod 65536.
Proof.
  intros Hv.
  unfold big_endian, payload_byte, shift_count. cbn [fold_left].
  change ((8 * ((2 - 0 - 1) mod 2 ^ 32)) mod 2 ^ 32) with 8.
  change ((8 * ((2 - 1 - 1) mod 2 ^ 32)) mod 2 ^ 32) with 0.
  rewrite Z.shiftl_0_l, Z.lor_0_l, Z.shiftr_0_r.
  rewrite lor_shiftl_byte.
  rewrite Z.shiftr_div_pow2 by lia. change (2 ^ 8) with 256.
  pose proof (Z.div_mod v 256 ltac:(lia)) as Hdiv.
  pose proof (Z.mod_pos_bound v 256 ltac:(lia)) as Hlo.
  pose proof (Z.div_mod (v / 256) 256 ltac:(lia)) as Hdiv2.
  pose proof (Z.mod_pos_bound (v / 256) 256 ltac:(lia)) as Hhi.
  apply (Z.mod_unique v 65536 (v / 256 / 256)); lia.
Qed.

Lemma payload_byte_mod (v s i : Z) :
  payload_byte v s i mod 256 = payload_byte v s i.
Proof. unfold payload_byte. apply Z.mod_mod. lia. Qed.

Lemma last_transmitted_transaction (cfg : ADT7320_ConfigTypeDef)
    (log : list hal_call) (hspi : Z) (txBuf : list Z) (Size Timeout : Z) :
  last_transmitted
    (log ++ transaction cfg (SPI_Transmit hspi txBuf Size Timeout))
  = take (Z.to_nat Size) txBuf.
Proof. unfold last_transmitted. now rewrite fold_left_app. Qed.

Lemma status_cast_value (h : HAL_StatusTypeDef) :
  ADT7320_Status_value (status_cast h) = HAL_Status_value h.
Proof. now destruct h. Qed.

Lemma status_cast_OK (h : HAL_StatusTypeDef) :
  status_cast h = ADT7320_OK <-> h = HAL_OK.
Proof. destruct h; split; intro H; try reflexivity; discriminate H. Qed.

(** The run of [ADT7320_WriteRegister] for the two sizes that fit its
    buffer. *)
Lemma WriteRegister_sizes bus cfg reg s v log :
  s = 1 \/ s = 2 ->
  let txBuf := if s =? 1
               then [command_byte ADT7320_WRITE reg; payload_byte v 1 0; 0]
               else [command_byte ADT7320_WRITE reg; payload_byte v 2 0;
                     payload_byte v 2 1] in
  ADT7320_WriteRegister bus (Some cfg) reg s v log =
  (Returns (status_cast
              (on_Transmit bus (log ++ [cs_assert cfg]) (SPIx cfg)
                           txBuf (s + 1) ADT7320_MAX_DELAY)),
   log ++ transaction cfg
            (SPI_Transmit (SPIx cfg) txBuf (s + 1) ADT7320_MAX_DELAY)).
Proof.
  intros Hs. rewrite WriteRegister_run by lia. unroll_loops.
  now destruct Hs as [-> | ->].
Qed.

(** X1.  Round trip.  Write a 16-bit value [v] with size [s] (1 or 2), then
    read the same register with the same size; if the read exchange brings
    back, after its first byte, the payload bytes the write transmitted, the
    read returns [v mod 2^(8*s)]: [v] itself when it fits [s] bytes, its low
    byte when a 16-bit value is written with size 1. *)
Theorem write_then_read_round_trip
    (bus : Transport) (cfg : ADT7320_ConfigTypeDef)
    (reg s v pData : Z) (log : list hal_call)
    (st : HAL_StatusTypeDef) (first : Z) :
  s = 1 \/ s = 2 ->
  0 <= v < 65536 ->
  let log' := snd (ADT7320_WriteRegister bus (Some cfg) reg s v log) in
  on_TransmitReceive bus (log' ++ [cs_assert cfg]) (SPIx cfg)
    [command_byte ADT7320_READ reg; 0; 0] (s + 1) ADT7320_MAX_DELAY
    = (st, first :: drop 1 (last_transmitted log')) ->
  fst (ADT7320_ReadRegister bus (Some cfg) reg s pData log')
    = Returns (status_cast st, v mod 2 ^ (8 * s)) /\
  (v < 2 ^ (8 * s) ->
   fst (ADT7320_ReadRegister bus (Some cfg) reg s pData log')
     = Returns (status_cast st, v)).
Proof.
  intros Hs Hv log' Hecho.
  assert (fst (ADT7320_ReadRegister bus (Some cfg) reg s pData log')
          = Returns (status_cast st, v mod 2 ^ (8 * s))) as Hread.
  { rewrite ReadRegister_sizes by exact Hs.
    rewrite Hecho. cbn [fst snd].
    subst log'. rewrite WriteRegister_sizes by exact Hs. cbn [snd].
    rewrite last_transmitted_transaction.
    destruct Hs as [-> | ->].
    - unfold store_bytes.
      change (big_endian _) with (big_endian [payload_byte v 1 0 mod 256]).
      rewrite payload_byte_mod.
      unfold big_endian, payload_byte, shift_count. cbn [fold_left].
      change ((8 * ((1 - 0 - 1) mod 2 ^ 32)) mod 2 ^ 32) with 0.
      now rewrite Z.shiftl_0_l, Z.lor_0_l, Z.shiftr_0_r.
    - unfold store_bytes.
      change (big_endian _)
        with (big_endian [payload_byte v 2 0 mod 256;
                          payload_byte v 2 1 mod 256]).
      rewrite !payload_byte_mod, payload_two_bytes by lia.
      reflexivity. }
  split; [exact Hread|].
  intros Hfits. rewrite Hread.
  now rewrite Z.mod_small by lia.
Qed.

Lemma write_then_read_round_trip_witness :
  fst (ADT7320_ReadRegister echo_bus (Some sample_cfg) ADT7320_THIGH 2 0
         (snd (ADT7320_WriteRegister echo_bus (Some sample_cfg)
                 ADT7320_THIGH 2 0x2300 [])))
    = Returns (ADT7320_OK, 0x2300).
Proof.
  refine (proj2 (write_then_read_round_trip echo_bus sample_cfg ADT7320_THIGH
                   2 0x2300 0 [] HAL_OK 0 _ _ _) _).
  - right. reflexivity.
  - lia.
  - reflexivity.
  - reflexivity.
Defined.

(** X2.  For a size of 1 or 2 the value [ADT7320_ReadRegister] stores always
    fits the size asked for, whatever the bus stored in the buffer: below 256
    for one byte, below 65536 for two. *)
Theorem read_register_value_fits_size
    (bus : Transport) (cfg : ADT7320_ConfigTypeDef)
    (reg s pData : Z) (log : list hal_call) :
  s = 1 \/ s = 2 ->
  exists status value,
    fst (ADT7320_ReadRegister bus (Some cfg) reg s pData log)
      = Returns (status, value) /\
    0 <= value < 2 ^ (8 * s).
Proof.
  intros Hs.
  rewrite ReadRegister_run by lia.
  set (answer := on_TransmitReceive _ _ _ _ _ _).
  pose proof (store_bytes_is_byte (snd answer)
                [command_byte ADT7320_READ reg; 0; 0]) as Hbytes.
  destruct (store_bytes_3 (snd answer) (command_byte ADT7320_READ reg) 0 0)
    as (a & b & c & E).
  rewrite E in *.
  assert (Forall is_byte [a; b; c]) as Habc.
  { apply Hbytes. apply Forall_cons. split; [apply command_byte_is_byte|].
    repeat constructor; unfold is_byte; lia. }
  apply Forall_cons in Habc as [_ Habc].
  apply Forall_cons in Habc as [Hb _].
  unroll_loops.
  destruct Hs as [-> | ->]; cbn [fst]; eexists _, _; (split; [reflexivity|]).
  - rewrite accumulate_first by exact Hb. exact Hb.
  - apply accumulate_range.
Qed.

Lemma read_register_value_fits_size_witness :
  exists status value,
    fst (ADT7320_ReadRegister (fake_bus HAL_OK [0x1FF; 0x3AB; 0x2CD])
           (Some sample_cfg) ADT7320_STATUS 1 0 [])
      = Returns (status, value) /\
    0 <= value < 2 ^ (8 * 1).
Proof.
  apply (read_register_value_fits_size (fake_bus HAL_OK [0x1FF; 0x3AB; 0x2CD])
           sample_cfg ADT7320_STATUS 1 0 []).
  left. reflexivity.
Defined.

(** X3.  For a size of 1 or 2 both register operations return the status the
    HAL reported for their one exchange, number for number: [ADT7320_OK]
    exactly when the HAL reported [HAL_OK], and busy and timeout are passed
    on as such. *)
Theorem register_status_is_hal_status
    (bus : Transport) (cfg : ADT7320_ConfigTypeDef)
    (reg s v pData : Z) (log : list hal_call) :
  s = 1 \/ s = 2 ->
  (exists status value rbuf,
     fst (ADT7320_ReadRegister bus (Some cfg) reg s pData log)
       = Returns (status, value) /\
     let reported := fst (on_TransmitReceive bus (log ++ [cs_assert cfg])
                            (SPIx cfg) rbuf (s + 1) ADT7320_MAX_DELAY) in
     snd (ADT7320_ReadRegister bus (Some cfg) reg s pData log)
       = log ++ transaction cfg
                  (SPI_TransmitReceive (SPIx cfg) rbuf (s + 1)
                                       ADT7320_MAX_DELAY) /\
     ADT7320_Status_value status = HAL_Status_value reported /\
     (status = ADT7320_OK <-> reported = HAL_OK)) /\
  (exists status wbuf,
     fst (ADT7320_WriteRegister bus (Some cfg) reg s v log)
       = Returns status /\
     let reported := on_Transmit bus (log ++ [cs_assert cfg]) (SPIx cfg)
                                 wbuf (s + 1) ADT7320_MAX_DELAY in
     snd (ADT7320_WriteRegister bus (Some cfg) reg s v log)
       = log ++ transaction cfg
                  (SPI_Transmit (SPIx cfg) wbuf (s + 1) ADT7320_MAX_DELAY) /\
     ADT7320_Status_value status = HAL_Status_value reported /\
     (status = ADT7320_OK <-> reported = HAL_OK)).
Proof.
  intros Hs. split.
  - rewrite ReadRegister_sizes by exact Hs. cbn [fst snd].
    eexists _, _, _. split; [reflexivity|].
    cbv zeta. split; [reflexivity|].
    split; [apply status_cast_value | apply status_cast_OK].
  - rewrite WriteRegister_sizes by exact Hs. cbn [fst snd].
    eexists _, _. split; [reflexivity|].
    cbv zeta. split; [reflexivity|].
    split; [apply status_cast_value | apply status_cast_OK].
Qed.

Lemma register_status_is_hal_status_witness :
  fst (ADT7320_WriteRegister (fake_bus HAL_BUSY []) (Some sample_cfg)
         ADT7320_CONFIG 1 0x80 [])
    = Returns ADT7320_BUSY.
Proof.
  destruct (register_status_is_hal_status (fake_bus HAL_BUSY []) sample_cfg
              ADT7320_CONFIG 1 0x80 0 [])
    as [_ (status & wbuf & Hrun & _ & Hvalue & _)].
  - left. reflexivity.
  - rewrite Hrun. f_equal.
    now destruct status.
Defined.

(** X4.  A read of one or two bytes clocks out the command byte followed by
    [s] zero bytes, [s + 1] bytes in all, in its one exchange. *)
Theorem read_register_sends_command_then_zeros
    (bus : Transport) (cfg : ADT7320_ConfigTypeDef)
    (reg s pData : Z) (log : list hal_call) :
  s = 1 \/ s = 2 ->
  exists call,
    snd (ADT7320_ReadRegister bus (Some cfg) reg s pData log)
      = log ++ [cs_assert cfg; call; cs_deassert cfg] /\
    sent_bytes call
      = command_byte ADT7320_READ reg :: replicate (Z.to_nat s) 0.
Proof.
  intros Hs. rewrite ReadRegister_sizes by exact Hs. cbn [snd].
  eexists. split; [reflexivity|].
  now destruct Hs as [-> | ->].
Qed.

Lemma read_register_sends_command_then_zeros_witness :
  exists call,
    snd (ADT7320_ReadRegister (fake_bus HAL_OK []) (Some sample_cfg)
           ADT7320_ID 1 0 [])
      = [cs_assert sample_cfg; call; cs_deassert sample_cfg] /\
    sent_bytes call = [0x58; 0].
Proof.
  apply (read_register_sends_command_then_zeros (fake_bus HAL_OK [])
           sample_cfg ADT7320_ID 1 0 []).
  left. reflexivity.
Defined.

(* ------------------------------------------------------------------------- *)
(** ** The layout of the command byte                                        *)
(* ------------------------------------------------------------------------- *)

(** X5.  For the register addresses of the header (0 to 7) the command byte
    can be decoded: bits 5..3 give back the address, bit 6 is the direction
    ([ADT7320_READ] or [ADT7320_WRITE]) and every other bit is zero.  Distinct
    (direction, address) pairs therefore give distinct command bytes. *)
Theorem command_byte_decodes (d a : Z) :
  d = ADT7320_READ \/ d = ADT7320_WRITE ->
  0 <= a <= 7 ->
  Z.shiftr (Z.land (command_byte d a) 0x38) 3 = a /\
  Z.land (command_byte d a) 0x40 = d /\
  Z.land (command_byte d a) 0x87 = 0.
Proof.
  intros Hd Ha.
  assert (a = 0 \/ a = 1 \/ a = 2 \/ a = 3 \/
          a = 4 \/ a = 5 \/ a = 6 \/ a = 7) as Hcases by lia.
  destruct Hd as [-> | ->];
    destruct Hcases as [-> | [-> | [-> | [-> | [-> | [-> | [-> | ->]]]]]]];
    repeat split; reflexivity.
Qed.

Lemma command_byte_decodes_witness :
  Z.shiftr (Z.land (command_byte ADT7320_READ ADT7320_TEMP) 0x38) 3
    = ADT7320_TEMP /\
  Z.land (command_byte ADT7320_READ ADT7320_TEMP) 0x40 = ADT7320_READ /\
  Z.land (command_byte ADT7320_READ ADT7320_TEMP) 0x87 = 0.
Proof.
  apply (command_byte_decodes ADT7320_READ ADT7320_TEMP).
  - left. reflexivity.
  - unfold ADT7320_TEMP. lia.
Defined.

Lemma land_0x1F_add_32 (reg : Z) : Z.land (reg + 32) 0x1F = Z.land reg 0x1F.
Proof.
  change 0x1F with (Z.ones 5).
  rewrite !Z.land_ones by lia.
  change (2 ^ 5) with 32.
  rewrite <- (Z.mul_1_l 32) at 1. apply Z.mod_add. lia.
Qed.

(** X6.  Only the low five bits of [reg] reach the command byte, and bit 3 of
    the address lands on the direction bit: [reg + 32] gives the command byte
    of [reg], a read of register [a + 8] gives the command byte of a read of
    register [a], and a write to register [a + 8] (for [a] in 0..7) puts on
    the bus the command byte of a read of register [a]. *)
Theorem command_byte_aliases
    (bus : Transport) (cfg : ADT7320_ConfigTypeDef)
    (d reg a data : Z) (log : list hal_call) :
  0 <= a <= 7 ->
  command_byte d (reg + 32) = command_byte d reg /\
  command_byte ADT7320_READ (a + 8) = command_byte ADT7320_READ a /\
  command_byte ADT7320_WRITE (a + 8) = command_byte ADT7320_READ a /\
  exists txBuf,
    snd (ADT7320_WriteRegister bus (Some cfg) (a + 8) 1 data log)
      = log ++ [cs_assert cfg;
                SPI_Transmit (SPIx cfg) txBuf 2 ADT7320_MAX_DELAY;
                cs_deassert cfg] /\
    head txBuf = Some (command_byte ADT7320_READ a).
Proof.
  intros Ha.
  assert (command_byte ADT7320_WRITE (a + 8) = command_byte ADT7320_READ a
          /\ command_byte ADT7320_READ (a + 8) = command_byte ADT7320_READ a)
    as [Hw Hr].
  { assert (a = 0 \/ a = 1 \/ a = 2 \/ a = 3 \/
            a = 4 \/ a = 5 \/ a = 6 \/ a = 7) as Hcases by lia.
    destruct Hcases as [-> | [-> | [-> | [-> | [-> | [-> | [-> | ->]]]]]]];
      split; reflexivity. }
  split; [unfold command_byte; now rewrite land_0x1F_add_32|].
  split; [exact Hr|]. split; [exact Hw|].
  rewrite WriteRegister_sizes by (now left). cbn [snd].
  eexists. split; [reflexivity|].
  cbn [head Z.eqb]. now rewrite Hw.
Qed.

Lemma command_byte_aliases_witness :
  command_byte ADT7320_WRITE 10 = command_byte ADT7320_READ ADT7320_TEMP.
Proof.
  refine (proj1 (proj2 (proj2 (command_byte_aliases (fake_bus HAL_OK [])
                                 sample_cfg 0 0 ADT7320_TEMP 0 [] _)))).
  unfold ADT7320_TEMP. lia.
Defined.

(* ------------------------------------------------------------------------- *)
(** ** Sizes the buffers cannot hold                                          *)
(* ------------------------------------------------------------------------- *)




(* ------------------------------------------------------------------------- *)
(** ** The range of the temperature                                          *)
(* ------------------------------------------------------------------------- *)

Lemma signed16_range (raw : Z) :
  0 <= raw < 65536 -> -32768 <= signed16 raw <= 32767.
Proof.
  intros Hraw. unfold signed16.
  pose proof (Z.div_mod raw 32768 ltac:(lia)) as Hdiv.
  pose proof (Z.mod_pos_bound raw 32768 ltac:(lia)) as Hmod.
  assert (0 <= raw / 32768 < 2) as Hq
      by (split; [apply Z.div_pos; lia|apply Z.div_lt_upper_bound; lia]).
  destruct (Z.testbit raw 15) eqn:E.
  - apply Z.testbit_true in E; [|lia]. change (2 ^ 15) with 32768 in E.
    assert (raw / 32768 = 1) as H1
        by (destruct (Z.eq_dec (raw / 32768) 0) as [H0|H0];
            [rewrite H0 in E; discriminate E|lia]).
    lia.
  - apply Z.testbit_false in E; [|lia]. change (2 ^ 15) with 32768 in E.
    assert (raw / 32768 = 0) as H0
        by (destruct (Z.eq_dec (raw / 32768) 1) as [H1|H1];
            [rewrite H1 in E; discriminate E|lia]).
    lia.
Qed.

Lemma raw_to_celsius_in_range (raw : Z) :
  0 <= raw < 65536 -> temperature_in_range (raw_to_celsius raw).
Proof.
  intros Hraw.
  destruct (raw_to_celsius_value raw Hraw) as (q & Hq & Heq).
  pose proof (signed16_range raw Hraw) as Hrange.
  exists q. split; [exact Hq|].
  rewrite Heq. unfold Qle, Qlt. cbn [Qnum Qden]. lia.
Qed.

(** X8.  On a valid handle [ADT7320_ReadTemperature] always returns, and when
    it reports [ADT7320_OK] the temperature it stored is a finite [float] in
    the range a 16-bit code can express, from -256 up to, but not including,
    256 degrees: never an infinity or a NaN.  If the location held such a
    value before the call, it holds one after it, whatever the status. *)
Theorem read_temperature_stays_in_range
    (bus : Transport) (cfg : ADT7320_ConfigTypeDef)
    (pTemperature : spec_float) (log : list hal_call) :
  exists status t,
    fst (ADT7320_ReadTemperature bus (Some cfg) pTemperature log)
      = Returns (status, t) /\
    (status = ADT7320_OK -> temperature_in_range t) /\
    (temperature_in_range pTemperature -> temperature_in_range t).
Proof.
  destruct (ReadTemperature_run bus cfg pTemperature log)
    as (status & data & _ & Hdata & ->).
  cbn [fst]. eexists _, _. split; [reflexivity|].
  destruct (ADT7320_Status_eqb status ADT7320_OK) eqn:E.
  - split; intros _; now apply raw_to_celsius_in_range.
  - split; [|trivial].
    intros HOK. apply ADT7320_Status_eqb_OK in HOK.
    rewrite HOK in E. discriminate E.
Qed.

Lemma read_temperature_stays_in_range_witness :
  exists status t,
    fst (ADT7320_ReadTemperature (fake_bus HAL_OK [0; 0x80; 0x00])
           (Some sample_cfg) (float_of_Z 0) [])
      = Returns (status, t) /\
    temperature_in_range t.
Proof.
  destruct (read_temperature_stays_in_range (fake_bus HAL_OK [0; 0x80; 0x00])
              sample_cfg (float_of_Z 0) [])
    as (status & t & Hrun & _ & Hkeep).
  exists status, t. split; [exact Hrun|].
  apply Hkeep.
  exists (0 # 1)%Q. repeat split; discriminate.
Defined.

(* ------------------------------------------------------------------------- *)
(** ** example/main.c                                                         *)
(* ------------------------------------------------------------------------- *)

Lemma bind_returns {A B : Type} (m : HAL_M A) (k : A -> HAL_M B)
    (a : A) (log log' : list hal_call) :
  m log = (Returns a, log') -> bind m k log = k a log'.
Proof. intros H. unfold bind. now rewrite H. Qed.

Lemma framed_log_one (cfg : ADT7320_ConfigTypeDef) (exchange : hal_call) :
  is_spi_exchange exchange = true ->
  framed_log cfg (transaction cfg exchange).
Proof.
  intros H. rewrite <- (app_nil_r (transaction cfg exchange)).
  apply framed_cons; [exact H|apply framed_nil].
Qed.

Lemma framed_log_app (cfg : ADT7320_ConfigTypeDef) (l1 l2 : list hal_call) :
  framed_log cfg l1 -> framed_log cfg l2 -> framed_log cfg (l1 ++ l2).
Proof.
  induction 1 as [|exchange rest Hspi Hrest IH]; intros H2; [exact H2|].
  rewrite <- app_assoc. apply framed_cons; [exact Hspi|now apply IH].
Qed.

Lemma main_setup_run bus h log :
  let log1 := log ++ transaction h
                (SPI_Transmit (SPIx h) [0xFF; 0xFF; 0xFF; 0xFF] 4
                              ADT7320_MAX_DELAY) in
  let log2 := log1 ++ transaction h
                (SPI_Transmit (SPIx h) [0x08; 0x80; 0x00] 2
                              ADT7320_MAX_DELAY) in
  let log3 := log2 ++ transaction h
                (SPI_Transmit (SPIx h) [0x38; 0xF6; 0x00] 3
                              ADT7320_MAX_DELAY) in
  Example.main_setup bus h Example.initial_globals log =
  (Returns
     {| Example.status :=
          [status_cast (on_Transmit bus (log ++ [cs_assert h]) (SPIx h)
                          [0xFF; 0xFF; 0xFF; 0xFF] 4 ADT7320_MAX_DELAY);
           status_cast (on_Transmit bus (log1 ++ [cs_assert h]) (SPIx h)
                          [0x08; 0x80; 0x00] 2 ADT7320_MAX_DELAY);
           status_cast (on_Transmit bus (log2 ++ [cs_assert h]) (SPIx h)
                          [0x38; 0xF6; 0x00] 3 ADT7320_MAX_DELAY);
           status_cast (on_Transmit bus (log3 ++ [cs_assert h]) (SPIx h)
                          [0x30; 0x23; 0x00] 3 ADT7320_MAX_DELAY);
           ADT7320_OK];
        Example.temperature := S754_zero false |},
   log ++ setup_events h).
Proof.
  intros log1 log2 log3. unfold Example.main_setup.
  erewrite bind_returns by apply Init_run.
  erewrite bind_returns by (apply WriteRegister_sizes; now left).
  erewrite bind_returns by (apply WriteRegister_sizes; now right).
  erewrite bind_returns by (apply WriteRegister_sizes; now right).
  unfold ret. f_equal.
  unfold setup_events. now rewrite !app_assoc.
Qed.

Lemma setup_events_framed (h : ADT7320_ConfigTypeDef) :
  framed_log h (setup_events h).
Proof.
  unfold setup_events.
  repeat apply framed_log_app; now apply framed_log_one.
Qed.



(** One iteration of the loop: one framed temperature read; only
    [status[4]] and [temperature] can change. *)
Lemma main_iteration_run bus h g log :
  exists st t,
    Example.main_iteration bus h g log
      = (Returns {| Example.status := <[4%nat := st]> (Example.status g);
                    Example.temperature := t |},
         log ++ transaction h
                  (SPI_TransmitReceive (SPIx h)
                     [command_byte ADT7320_READ ADT7320_TEMP; 0; 0] 3
                     ADT7320_MAX_DELAY)) /\
    (temperature_in_range (Example.temperature g) ->
     temperature_in_range t).
Proof.
  destruct (ReadTemperature_run bus h (Example.temperature g) log)
    as (st & data & _ & Hdata & Hrun).
  unfold Example.main_iteration.
  erewrite bind_returns by exact Hrun.
  eexists _, _. split; [reflexivity|].
  intros Hold.
  destruct (ADT7320_Status_eqb st ADT7320_OK);
    [now apply raw_to_celsius_in_range|exact Hold].
Qed.

Lemma main_iterations_run bus h n :
  forall g log,
    temperature_in_range (Example.temperature g) ->
    exists g' events,
      Example.main_iterations bus h n g log = (Returns g', log ++ events) /\
      framed_log h events /\
      length events = (3 * n)%nat /\
      temperature_in_range (Example.temperature g') /\
      take 4 (Example.status g') = take 4 (Example.status g).
Proof.
  induction n as [|n IH]; intros g log Hg.
  - exists g, []. rewrite app_nil_r.
    repeat split; [apply framed_nil|exact Hg].
  - destruct (main_iteration_run bus h g log) as (st & t & Hrun & Ht).
    cbn [Example.main_iterations].
    erewrite bind_returns by exact Hrun.
    destruct (IH {| Example.status := <[4%nat := st]> (Example.status g);
                    Example.temperature := t |}
                 (log ++ transaction h
                           (SPI_TransmitReceive (SPIx h)
                              [command_byte ADT7320_READ ADT7320_TEMP; 0; 0]
                              3 ADT7320_MAX_DELAY))
                 (Ht Hg))
      as (g' & events & Hrest & Hframed & Hlen & Htemp & Hstatus).
    rewrite Hrest.
    eexists g', (_ ++ events). rewrite app_assoc.
    split; [reflexivity|].
    split; [apply framed_log_app; [now apply framed_log_one|exact Hframed]|].
    split; [rewrite length_app, Hlen; cbn [transaction length]; lia|].
    split; [exact Htemp|].
    rewrite Hstatus. cbn [Example.status].
    apply take_insert_ge. lia.
Qed.

(** X10.  The run of [main] through its set-up and any number [n] of loop
    iterations never hits undefined behaviour, and its HAL calls are
    [4 + n] framed transactions back to back: chip-select is released between
    any two exchanges.  The loop leaves [status[0..3]] as the set-up recorded
    them, and [temperature] always holds a finite value of the sensor's range
    (initially 0.0, afterwards the last reading that reported
    [ADT7320_OK]). *)
Theorem main_keeps_bus_framed_and_temperature_finite
    (bus : Transport) (h : ADT7320_ConfigTypeDef) (n : nat)
    (log : list hal_call) :
  exists g events,
    Example.main bus h n log = (Returns g, log ++ events) /\
    framed_log h events /\
    length events = (3 * (4 + n))%nat /\
    temperature_in_range (Example.temperature g) /\
    forall g0 log0,
      Example.main_setup bus h Example.initial_globals log
        = (Returns g0, log0) ->
      take 4 (Example.status g) = take 4 (Example.status g0).
Proof.
  unfold Example.main.
  pose proof (main_setup_run bus h log) as Hsetup. cbv zeta in Hsetup.
  erewrite bind_returns by exact Hsetup.
  rewrite Hsetup.
  edestruct (main_iterations_run bus h n)
    as (g & events & Hrun & Hframed & Hlen & Htemp & Hstatus);
    [|rewrite Hrun].
  - exists (0 # 1)%Q. repeat split; discriminate.
  - exists g, (setup_events h ++ events). rewrite app_assoc.
    split; [reflexivity|].
    split; [apply framed_log_app; [apply setup_events_framed|exact Hframed]|].
    split; [rewrite length_app, Hlen; cbn; lia|].
    split; [exact Htemp|].
    intros g0 log0 Hg0. injection Hg0 as <- _. exact Hstatus.
Qed.

Lemma main_keeps_bus_framed_and_temperature_finite_witness :
  exists g events,
    Example.main (fake_bus HAL_TIMEOUT []) sample_cfg 2 []
      = (Returns g, events) /\
    length events = 18%nat /\
    take 4 (Example.status g)
      = [ADT7320_TIMEOUT; ADT7320_TIMEOUT; ADT7320_TIMEOUT; ADT7320_TIMEOUT].
Proof.
  destruct (main_keeps_bus_framed_and_temperature_finite
              (fake_bus HAL_TIMEOUT []) sample_cfg 2 [])
    as (g & events & Hrun & _ & Hlen & _ & Hstatus).
  exists g, events. split; [exact Hrun|]. split; [exact Hlen|].
  exact (Hstatus _ _ eq_refl).
Defined.
